(** * cache.Client: a cache-aside access layer (src/cache/cache.go)

    The Go methods of [Client] are embedded as computations of a small state
    monad.  The state holds the [Client] struct itself, the state of the
    external collaborators (storage backend, builder's data source, sinks,
    wall clock), the objects that [dest] pointers refer to, the goroutines
    spawned by [go] and not yet run, and a log of every call issued to a
    capability together with its result. *)

From Stdlib Require Import ZArith List String Bool Lia.
Import ListNotations.
Open Scope string_scope.
Open Scope list_scope.
Open Scope Z_scope.

(** ** Errors *)

(** Modelled from the spec: the [error] values the client handles.  The
    sentinel [ErrCacheMiss] and the type [LambdaError] are declared in files
    of the package that are not part of the sources; the spec calls them the
    distinguished miss signal and the build-specific wrapper carrying the
    underlying cause.  [errorString] stands for any other error value. *)
Inductive error : Type :=
| ErrCacheMiss : error
| errorString (s : string) : error
| LambdaError (Cause : error) : error.

(** Go's [err == ErrCacheMiss]: comparison of error values. *)
Fixpoint error_eqb (a b : error) : bool :=
  match a, b with
  | ErrCacheMiss, ErrCacheMiss => true
  | errorString s, errorString t => String.eqb s t
  | LambdaError x, LambdaError y => error_eqb x y
  | _, _ => false
  end.

(** The type test of an error value against [LambdaError]. *)
Definition isLambdaError (e : error) : bool :=
  match e with LambdaError _ => true | _ => false end.

(** The field [Cause] of a [LambdaError]. *)
Definition Cause (e : error) : option error :=
  match e with LambdaError c => Some c | _ => None end.

(** ** Metric events *)

(** Modelled from the spec: the event kinds passed to [Metrics.Track]; the
    constants are declared outside the sources, the names are those used in
    cache.go. *)
Inductive Event : Type :=
| CacheHit | CacheMiss | CacheGetError | CacheLambdaError
| CacheUnmarshalError | CacheSetError | CacheMarshalError
| CacheInvalidateError.


(** ** context.Context *)

(** The part of Go's [context] package the client uses.  A [cancelCtx]
    records the instant at which its owner calls the cancel function, if it
    ever does; a [timerCtx] records its deadline.  Instants and durations are
    nanoseconds. *)
Inductive Context : Type :=
| Background : Context
| cancelCtx (parent : Context) (cancelledAt : option Z) : Context
| timerCtx (parent : Context) (deadline : Z) : Context.

(** [ctx.Deadline()]. *)
Fixpoint Deadline (ctx : Context) : option Z :=
  match ctx with
  | Background => None
  | cancelCtx p _ => Deadline p
  | timerCtx p d =>
      match Deadline p with
      | Some cur => Some (Z.min cur d)
      | None => Some d
      end
  end.

(** Whether [ctx.Done()] is closed at instant [t] ([ctx.Err() != nil]). *)
Fixpoint Done (ctx : Context) (t : Z) : bool :=
  match ctx with
  | Background => false
  | cancelCtx p c =>
      Done p t || match c with Some t0 => t0 <=? t | None => false end
  | timerCtx p d => Done p t || (d <=? t)
  end.

(** [context.WithDeadline(parent, d)]: when the parent's deadline is already
    sooner, only a cancellable child is made. *)
Definition WithDeadline (parent : Context) (d : Z) : Context :=
  match Deadline parent with
  | Some cur => if cur <? d then cancelCtx parent None else timerCtx parent d
  | None => timerCtx parent d
  end.

(** [context.WithTimeout(parent, timeout)] called at instant [now]. *)
Definition WithTimeout (now : Z) (parent : Context) (timeout : Z) : Context :=
  WithDeadline parent (now + timeout).

(** ** Integers *)

(** Two's complement wrap-around of [int64]. *)
Definition wrap64 (x : Z) : Z := (x + 2 ^ 63) mod 2 ^ 64 - 2 ^ 63.

(** [time.Second], a [time.Duration] in nanoseconds. *)
Definition Second : Z := 1000000000.

(** ** Capabilities *)

(** Go's [[]byte]. *)
Definition bytes := list Byte.byte.

(** A [dest]/[val] argument is a pointer to an object. *)
Definition loc := nat.

(** [BinaryEncoder]: [encoding.BinaryMarshaler] and
    [encoding.BinaryUnmarshaler] over the contents [V] of an object.
    [UnmarshalBinary] returns the receiver's new contents. *)
Class BinaryEncoder (V : Type) : Type := {
  MarshalBinary : V -> bytes * option error;
  UnmarshalBinary : V -> bytes -> V * option error
}.

(** An argument of [Logger.Log]. *)
Inductive LogArg : Type :=
| ArgString (s : string)
| ArgError (e : error).

Section Capabilities.
(** State of the external collaborators. *)
Variable W : Type.
Variable V : Type.

(** Modelled from the spec: the [Storage] interface, declared outside the
    sources: Get/Set/Invalidate against raw byte payloads keyed by string. *)
Record Storage : Type := {
  Storage_Get : Context -> string -> W -> (bytes * option error) * W;
  Storage_Set : Context -> string -> bytes -> W -> option error * W;
  Storage_Invalidate : Context -> string -> W -> option error * W
}.

(** Modelled from the spec: the [Logger] interface, declared outside the
    sources: log(format, args), no result. *)
Record Logger : Type := {
  Log : string -> list LogArg -> W -> W
}.

(** Modelled from the spec: the [Metrics] interface, declared outside the
    sources: track(eventKind), no result. *)
Record Metrics : Type := {
  Track : Event -> W -> W
}.

(** Modelled from the spec: the no-op logger, which discards all calls. *)
Definition noopLogger : Logger := {| Log := fun _ _ w => w |}.

(** Modelled from the spec: the no-op metrics sink. *)
Definition noopMetrics : Metrics := {| Track := fun _ w => w |}.

(** [Builder] (and [BuilderFunc]): populates [dest] in place; the model
    passes the contents of [dest] and gets the new contents back. *)
Definition Builder : Type :=
  Context -> string -> V -> W -> (V * option error) * W.

(** The [Client] struct. *)
Record Client : Type := {
  Storage_ : Storage;
  Logger_ : option Logger;
  Metrics_ : option Metrics;
  WriteTimeout : Z;
  pendingWrites : Z
}.
End Capabilities.

Arguments Storage_Get {W}.
Arguments Storage_Set {W}.
Arguments Storage_Invalidate {W}.
Arguments Log {W}.
Arguments Track {W}.
Arguments noopLogger {W}.
Arguments noopMetrics {W}.
Arguments Storage_ {W}.
Arguments Logger_ {W}.
Arguments Metrics_ {W}.
Arguments WriteTimeout {W}.
Arguments pendingWrites {W}.

(** ** Calls and goroutines *)

(** A goroutine started by [go c.Set(ctx, key, val)]. *)
Record Task : Type := {
  task_ctx : Context;
  task_key : string;
  task_val : loc
}.

(** One entry of the call log: a call issued by the client, with the result
    it got. *)
Inductive Call : Type :=
| CStorageGet (ctx : Context) (key : string) (res : bytes) (err : option error)
| CStorageSet (ctx : Context) (key : string) (data : bytes) (err : option error)
| CStorageInvalidate (ctx : Context) (key : string) (err : option error)
| CBuild (ctx : Context) (key : string) (dest : loc) (err : option error)
| CMarshal (val : loc) (res : bytes) (err : option error)
| CUnmarshal (dest : loc) (data : bytes) (err : option error)
| CTrack (e : Event)
| CLog (format : string) (args : list LogArg)
| CAtomicAdd (delta : Z)
| CGo (t : Task)
| CCancel (ctx : Context).

Section Cache.
Variable W : Type.
Variable V : Type.
Context {enc : BinaryEncoder V}.
(** [time.Now()], read off the external world. *)
Variable now : W -> Z.

(** ** Program state *)
Record State : Type := {
  self : Client W;          (* the struct [c] points to *)
  world : W;                (* external collaborators *)
  heap : loc -> V;          (* objects behind [dest]/[val] pointers *)
  pool : list Task;         (* goroutines spawned and not yet run *)
  trace : list Call         (* call log, oldest first *)
}.

Definition M (A : Type) : Type := State -> A * State.

Definition ret {A} (a : A) : M A := fun st => (a, st).

Definition bind {A B} (m : M A) (k : A -> M B) : M B :=
  fun st => let (a, st') := m st in k a st'.

Notation "x <- m ;; k" := (bind m (fun x => k))
  (at level 61, m at next level, right associativity).
Notation "m ;;; k" := (bind m (fun _ => k))
  (at level 61, right associativity).

(** *** Primitive effects *)

Definition emit (c : Call) : M unit := fun st =>
  (tt, {| self := self st; world := world st; heap := heap st;
          pool := pool st; trace := trace st ++ [c] |}).

Definition extern {A} (f : W -> A * W) : M A := fun st =>
  let (a, w) := f (world st) in
  (a, {| self := self st; world := w; heap := heap st;
         pool := pool st; trace := trace st |}).

Definition getSelf : M (Client W) := fun st => (self st, st).

Definition load (l : loc) : M V := fun st => (heap st l, st).

Definition store (l : loc) (v : V) : M unit := fun st =>
  (tt, {| self := self st; world := world st;
          heap := fun l' => if Nat.eqb l' l then v else heap st l';
          pool := pool st; trace := trace st |}).

(** [atomic.AddInt64(&c.pendingWrites, delta)]. *)
Definition atomic_AddInt64 (delta : Z) : M unit := fun st =>
  let c := self st in
  (tt, {| self := {| Storage_ := Storage_ c; Logger_ := Logger_ c;
                     Metrics_ := Metrics_ c;
                     WriteTimeout := WriteTimeout c;
                     pendingWrites := wrap64 (pendingWrites c + delta) |};
          world := world st; heap := heap st; pool := pool st;
          trace := trace st ++ [CAtomicAdd delta] |}).

(** The [go] statement: the goroutine joins the pool. *)
Definition go (t : Task) : M unit := fun st =>
  (tt, {| self := self st; world := world st; heap := heap st;
          pool := pool st ++ [t]; trace := trace st ++ [CGo t] |}).

(** [defer d] around a body: [d] runs when the body returns. *)
Definition defer {A} (d : M unit) (body : M A) : M A :=
  r <- body ;; d ;;; ret r.

(** *** Accessors *)

(** return the supplied logger or a no-op implementation *)
Definition getLogger (c : Client W) : Logger W :=
  match Logger_ c with
  | Some l => l
  | None => noopLogger
  end.

(** return the supplied metric tracker or a no-op implementation *)
Definition getMetrics (c : Client W) : Metrics W :=
  match Metrics_ c with
  | Some m => m
  | None => noopMetrics
  end.

(** return the timeout on cache writes *)
Definition getWriteTimeout (c : Client W) : Z :=
  if WriteTimeout c >? 0 then WriteTimeout c else 3 * Second.

(** *** Calls to the capabilities, logged with their results *)

Definition doLog (format : string) (key : string) (err : error) : M unit :=
  c <- getSelf ;;
  let args := [ArgString key; ArgError err] in
  extern (fun w => (tt, Log (getLogger c) format args w)) ;;;
  emit (CLog format args).

Definition doTrack (e : Event) : M unit :=
  c <- getSelf ;;
  extern (fun w => (tt, Track (getMetrics c) e w)) ;;;
  emit (CTrack e).

Definition doStorageGet (ctx : Context) (key : string)
  : M (bytes * option error) :=
  c <- getSelf ;;
  r <- extern (Storage_Get (Storage_ c) ctx key) ;;
  emit (CStorageGet ctx key (fst r) (snd r)) ;;;
  ret r.

Definition doStorageSet (ctx : Context) (key : string) (data : bytes)
  : M (option error) :=
  c <- getSelf ;;
  r <- extern (Storage_Set (Storage_ c) ctx key data) ;;
  emit (CStorageSet ctx key data r) ;;;
  ret r.

Definition doStorageInvalidate (ctx : Context) (key : string)
  : M (option error) :=
  c <- getSelf ;;
  r <- extern (Storage_Invalidate (Storage_ c) ctx key) ;;
  emit (CStorageInvalidate ctx key r) ;;;
  ret r.

Definition doBuild (builder : Builder W V) (ctx : Context) (key : string)
  (dest : loc) : M (option error) :=
  v <- load dest ;;
  r <- extern (builder ctx key v) ;;
  store dest (fst r) ;;;
  emit (CBuild ctx key dest (snd r)) ;;;
  ret (snd r).

Definition doMarshal (val : loc) : M (bytes * option error) :=
  v <- load val ;;
  let r := MarshalBinary v in
  emit (CMarshal val (fst r) (snd r)) ;;;
  ret r.

Definition doUnmarshal (dest : loc) (data : bytes) : M (option error) :=
  v <- load dest ;;
  let r := UnmarshalBinary v data in
  store dest (fst r) ;;;
  emit (CUnmarshal dest data (snd r)) ;;;
  ret (snd r).

(** [context.WithTimeout(ctx, d)] at the current instant. *)
Definition doWithTimeout (ctx : Context) (d : Z) : M Context :=
  fun st => (WithTimeout (now (world st)) ctx d, st).

(** *** The methods of [Client] *)

(** Invalidate will force invalidate any matching key in the cache *)
Definition Invalidate (ctx : Context) (key : string) : M (option error) :=
  err <- doStorageInvalidate ctx key ;;
  match err with
  | Some e =>
      doLog "cache invalidate error. key: '%s' error: %s" key e ;;;
      doTrack CacheInvalidateError ;;;
      ret (Some e)
  | None => ret None
  end.

(** Set will update the cache with the supplied key/value pair.  Named
    [Set_] since [Set] is a sort. *)
Definition Set_ (ctx : Context) (key : string) (val : loc) : M unit :=
  defer (atomic_AddInt64 (-1)) (
    c <- getSelf ;;
    ctx' <- doWithTimeout ctx (getWriteTimeout c) ;;
    defer (emit (CCancel ctx')) (
      r <- doMarshal val ;;
      match snd r with
      | Some e =>
          doLog "cache update marshal error. key: '%s' error: %s" key e ;;;
          doTrack CacheMarshalError ;;;
          ret tt
      | None =>
          err <- doStorageSet ctx' key (fst r) ;;
          match err with
          | Some e =>
              doLog "cache update set error. key: '%s' error: %s" key e ;;;
              doTrack CacheSetError
          | None => ret tt
          end
      end)).

Definition onCacheMiss (ctx : Context) (key : string) (dest : loc)
  (builder : Builder W V) : M (option error) :=
  err <- doBuild builder ctx key dest ;;
  match err with
  | Some e =>
      doLog "cache miss build error. key: '%s' error: %s" key e ;;;
      doTrack CacheLambdaError ;;;
      ret (Some (LambdaError e))
  | None =>
      atomic_AddInt64 1 ;;;
      go {| task_ctx := Background; task_key := key; task_val := dest |} ;;;
      ret None
  end.

Definition onCacheHit (ctx : Context) (key : string) (dest : loc)
  (data : bytes) : M (option error) :=
  err <- doUnmarshal dest data ;;
  match err with
  | Some e =>
      doLog "cache hit unmarshal error. key: '%s' error: %s" key e ;;;
      doTrack CacheUnmarshalError ;;;
      (* invalidate to remove "bad" data *)
      Invalidate ctx key ;;;
      ret (Some e)
  | None =>
      doTrack CacheHit ;;;
      ret None
  end.

(** Get attempts to retrieve the value from cache and when it misses will
    run the builder func to create the value. *)
Definition Get (ctx : Context) (key : string) (dest : loc)
  (builder : Builder W V) : M (option error) :=
  r <- doStorageGet ctx key ;;
  match snd r with
  | Some e =>
      if error_eqb e ErrCacheMiss then
        doTrack CacheMiss ;;;
        onCacheMiss ctx key dest builder
      else
        doLog "cache get error. key: '%s' error: %s" key e ;;;
        doTrack CacheGetError ;;;
        ret (Some e)
  | None => onCacheHit ctx key dest (fst r)
  end.

(** *** Running spawned goroutines *)

(** The body of a goroutine: the [Set] call it was started with. *)
Definition run_task (t : Task) : M unit :=
  Set_ (task_ctx t) (task_key t) (task_val t).

Definition remove_nth {A} (i : nat) (l : list A) : list A :=
  firstn i l ++ skipn (S i) l.

(** The scheduler runs the [i]-th goroutine of the pool to completion;
    nothing happens when there is none. *)
Definition schedule (i : nat) : M unit := fun st =>
  match nth_error (pool st) i with
  | Some t =>
      run_task t {| self := self st; world := world st; heap := heap st;
                    pool := remove_nth i (pool st); trace := trace st |}
  | None => (tt, st)
  end.

(** A sequence of direct calls of [Set]. *)
Fixpoint Set_many (calls : list (Context * string * loc)) : M unit :=
  match calls with
  | [] => ret tt
  | (ctx, key, val) :: rest => Set_ ctx key val ;;; Set_many rest
  end.

End Cache.

Arguments State W V : clear implicits.
Arguments self {W V}.
Arguments world {W V}.
Arguments heap {W V}.
Arguments pool {W V}.
Arguments trace {W V}.
Arguments getWriteTimeout {W}.
Arguments getLogger {W}.
Arguments getMetrics {W}.

(** ** Observations on the call log *)

(** The entries added to the log [old] to make [new]. *)
Definition added (old new : list Call) : list Call :=
  skipn (List.length old) new.

(** The events passed to [Track], in order. *)
Fixpoint tracked (l : list Call) : list Event :=
  match l with
  | [] => []
  | CTrack e :: r => e :: tracked r
  | _ :: r => tracked r
  end.




(** Results of the [Builder.Build] calls, in order. *)
Fixpoint builds (l : list Call) : list (string * loc * option error) :=
  match l with
  | [] => []
  | CBuild _ k d e :: r => (k, d, e) :: builds r
  | _ :: r => builds r
  end.


(** Whether a [Builder.Build] call returned no error. *)
Definition build_succeeded (l : list Call) : bool :=
  existsb (fun b => match snd b with Some _ => false | None => true end)
          (builds l).

(** Arguments of the [Storage.Set] calls, in order. *)
Fixpoint storage_sets (l : list Call) : list (Context * string * bytes) :=
  match l with
  | [] => []
  | CStorageSet c k d _ :: r => (c, k, d) :: storage_sets r
  | _ :: r => storage_sets r
  end.


(** Deltas of the [atomic.AddInt64] calls on the counter, in order. *)
Fixpoint atomic_adds (l : list Call) : list Z :=
  match l with
  | [] => []
  | CAtomicAdd d :: r => d :: atomic_adds r
  | _ :: r => atomic_adds r
  end.

(** Goroutines started, in order. *)
Fixpoint spawned (l : list Call) : list Task :=
  match l with
  | [] => []
  | CGo t :: r => t :: spawned r
  | _ :: r => spawned r
  end.

Section Runs.
Context {W V : Type} {enc : BinaryEncoder V}.
Variable now : W -> Z.

(** Result, final state and logged calls of a computation run from [st]. *)
Definition result {A} (m : M W V A) (st : State W V) : A := fst (m st).
Definition final {A} (m : M W V A) (st : State W V) : State W V :=
  snd (m st).
Definition calls {A} (m : M W V A) (st : State W V) : list Call :=
  added (trace st) (trace (snd (m st))).

(** The context handed to [Storage.Set] by a [Set] run from [st]. *)
Definition write_ctx (st : State W V) (ctx : Context) : Context :=
  WithTimeout (now (world st)) ctx (getWriteTimeout (self st)).

(** What [Set] sends to [Storage.Set] when the object holds [v]. *)
Definition expected_sets (wctx : Context) (k : string) (v : V)
  : list (Context * string * bytes) :=
  match MarshalBinary v with
  | (data, None) => [(wctx, k, data)]
  | (_, Some _) => []
  end.
End Runs.

(** ** A concrete backend, value type and builder *)

Module Demo.

(** A user record, the value cached in the scenarios. *)
Record User : Type := { id : Z; name : string }.

(** The external world: an in-memory store, the wall clock, an outage of
    the store (every operation fails), a write protection of the store
    (Set and Invalidate fail), the state of the builder's data source and
    the events seen by the metrics sink. *)
Record World : Type := {
  store : list (string * bytes);
  clock : Z;
  outage : option error;
  readonly : option error;
  source : option error;
  seen : list Event
}.

Definition byte_of_Z (z : Z) : Byte.byte :=
  Ascii.byte_of_ascii (Ascii.ascii_of_N (Z.to_N z)).

Definition Z_of_byte (b : Byte.byte) : Z := Z.of_N (Byte.to_N b).

(** One byte of id followed by the name; negative ids do not encode and
    an empty payload does not decode. *)
#[export] Instance User_encoder : BinaryEncoder User := {|
  MarshalBinary u :=
    if id u <? 0 then ([], Some (errorString "negative id"))
    else (byte_of_Z (id u) :: list_byte_of_string (name u), None);
  UnmarshalBinary u data :=
    match data with
    | [] => (u, Some (errorString "unexpected end of data"))
    | b :: rest =>
        ({| id := Z_of_byte b; name := string_of_list_byte rest |}, None)
    end
|}.

Fixpoint lookup (k : string) (l : list (string * bytes)) : option bytes :=
  match l with
  | [] => None
  | (k', v) :: r => if String.eqb k k' then Some v else lookup k r
  end.

Fixpoint remove (k : string) (l : list (string * bytes))
  : list (string * bytes) :=
  match l with
  | [] => []
  | (k', v) :: r => if String.eqb k k' then remove k r
                    else (k', v) :: remove k r
  end.

Definition with_store (w : World) (s : list (string * bytes)) : World :=
  {| store := s; clock := clock w; outage := outage w;
     readonly := readonly w; source := source w; seen := seen w |}.

(** A store that honours its context: a write under a context that is
    already done fails. *)
Definition memStorage : Storage World := {|
  Storage_Get ctx k w :=
    match outage w with
    | Some e => (([], Some e), w)
    | None =>
        match lookup k (store w) with
        | Some b => ((b, None), w)
        | None => (([], Some ErrCacheMiss), w)
        end
    end;
  Storage_Set ctx k b w :=
    match outage w, readonly w with
    | Some e, _ | None, Some e => (Some e, w)
    | None, None =>
        if Done ctx (clock w) then (Some (errorString "context done"), w)
        else (None, with_store w ((k, b) :: remove k (store w)))
    end;
  Storage_Invalidate ctx k w :=
    match outage w, readonly w with
    | Some e, _ | None, Some e => (Some e, w)
    | None, None => (None, with_store w (remove k (store w)))
    end
|}.

Definition countingMetrics : Metrics World := {|
  Track e w := {| store := store w; clock := clock w; outage := outage w;
                  readonly := readonly w; source := source w;
                  seen := seen w ++ [e] |}
|}.

Definition Ann : User := {| id := 42; name := "Ann" |}.
Definition blank : User := {| id := 0; name := "" |}.

(** The builder of the scenarios: yields Ann unless the data source is
    down. *)
Definition fetchUser : Builder World User := fun ctx key u w =>
  match source w with
  | Some e => ((u, Some e), w)
  | None => ((Ann, None), w)
  end.


(** A freshly made client: zero value of the counter. *)
Definition client (timeout : Z) : Client World := {|
  Storage_ := memStorage;
  Logger_ := None;
  Metrics_ := Some countingMetrics;
  WriteTimeout := timeout;
  pendingWrites := 0
|}.

Definition world_with (s : list (string * bytes)) (o r src : option error)
  : World :=
  {| store := s; clock := 1000; outage := o; readonly := r;
     source := src; seen := [] |}.

(** A state where every object holds [v] and nothing has happened yet. *)
Definition init (c : Client World) (w : World) (v : User)
  : State World User := {|
  self := c; world := w; heap := fun _ => v; pool := []; trace := []
|}.

Definition key42 : string := "user:42".

Definition Ann_bytes : bytes := byte_of_Z 42 :: list_byte_of_string "Ann".

(** Empty store. *)
Definition st_empty : State World User :=
  init (client 0) (world_with [] None None None) blank.

(** Empty store, the builder's data source is down. *)
Definition st_source_down : State World User :=
  init (client 0)
       (world_with [] None None (Some (errorString "db unreachable"))) blank.

(** The store times out. *)
Definition st_outage : State World User :=
  init (client 0)
       (world_with [] (Some (errorString "timeout")) None None) blank.

(** The store holds Ann under user:42. *)
Definition st_stored : State World User :=
  init (client 0) (world_with [(key42, Ann_bytes)] None None None) blank.



(** Every object holds Ann; used for direct calls of Set. *)
Definition st_Ann : State World User :=
  init (client 0) (world_with [] None None None) Ann.

(** A caller's context cancelled at instant 0, before the clock's 1000. *)
Definition cancelled : Context := cancelCtx Background (Some 0).

(** A caller's context whose deadline is instant 1001. *)
Definition hurried : Context := timerCtx Background 1001.

End Demo.

Arguments ret {W V A}.
Arguments bind {W V A B}.
Arguments Invalidate {W V}.
Arguments Set_ {W V enc}.
Arguments onCacheMiss {W V}.
Arguments onCacheHit {W V enc}.
Arguments Get {W V enc}.
Arguments run_task {W V enc}.
Arguments schedule {W V enc}.
Arguments Set_many {W V enc}.

(** ** Further observations and drivers *)


(** Contexts released by a deferred cancel function, in order. *)
Fixpoint cancels (l : list Call) : list Context :=
  match l with
  | [] => []
  | CCancel c :: r => c :: cancels r
  | _ :: r => cancels r
  end.






Section Drivers.
Context {W V : Type} {enc : BinaryEncoder V}.
Variable now : W -> Z.

(** What a program using the client through Get and Invalidate only can
    make happen: its own calls, and the scheduler running a goroutine. *)
Inductive Op : Type :=
| OpGet (ctx : Context) (key : string) (dest : loc) (builder : Builder W V)
| OpInvalidate (ctx : Context) (key : string)
| OpSchedule (i : nat).

Definition run_op (o : Op) : M W V unit :=
  match o with
  | OpGet ctx key dest builder =>
      bind (Get ctx key dest builder) (fun _ => ret tt)
  | OpInvalidate ctx key => bind (Invalidate ctx key) (fun _ => ret tt)
  | OpSchedule i => schedule now i
  end.

Fixpoint run_ops (l : list Op) : M W V unit :=
  match l with
  | [] => ret tt
  | o :: rest => bind (run_op o) (fun _ => run_ops rest)
  end.


(** The counter equals the number of goroutines started and not yet run. *)
Definition counter_matches_pool (st : State W V) : Prop :=
  pendingWrites (self st) = wrap64 (Z.of_nat (List.length (pool st))).
End Drivers.

Arguments OpInvalidate {W V}.
Arguments OpSchedule {W V}.

(** ** Properties *)

Arguments wrap64 : simpl never.
Arguments WithTimeout : simpl never.
Arguments getWriteTimeout : simpl never.
Arguments getLogger : simpl never.
Arguments getMetrics : simpl never.

(** Unfolds the monadic code of a run down to the calls of the external
    functions. *)
Ltac run :=
  cbv [result final calls Get onCacheHit onCacheMiss Invalidate Set_ defer
       bind ret getSelf extern emit load store atomic_AddInt64 go doLog
       doTrack doStorageGet doStorageSet doStorageInvalidate doBuild
       doMarshal doUnmarshal doWithTimeout run_task];
  simpl.

Lemma added_app (l l' : list Call) : added l (l ++ l') = l'.
Proof.
  unfold added. induction l as [|a l IH]; simpl; auto.
Qed.

Lemma added_self (l : list Call) : added l l = [].
Proof.
  rewrite <- (app_nil_r l) at 2. apply added_app.
Qed.

Lemma error_eqb_eq (a b : error) : error_eqb a b = true <-> a = b.
Proof.
  revert b. induction a as [|s|a IH]; intros [|t|b]; simpl;
    try (split; [discriminate | intros E; inversion E]); try tauto.
  - rewrite String.eqb_eq. split; intros E; [subst | inversion E]; auto.
  - rewrite IH. split; intros E; [subst | inversion E]; auto.
Qed.

Lemma error_eqb_neq (a b : error) : a <> b -> error_eqb a b = false.
Proof.
  intros N. destruct (error_eqb a b) eqn:E; auto.
  apply error_eqb_eq in E. contradiction.
Qed.

Lemma LambdaError_neq (e : error) : LambdaError e <> e.
Proof.
  induction e as [|s|e IH]; intros E; try discriminate.
  inversion E. auto.
Qed.

(** Brings the calls added by a run into the form of an explicit list. *)
Ltac settle :=
  rewrite <- ?app_assoc; rewrite ?added_app, ?added_self; simpl.

Section Read.
Context {W V : Type} {enc : BinaryEncoder V}.
Variables (st : State W V) (ctx : Context) (k : string) (dest : loc)
          (b : Builder W V).


(** C4.  When Storage.Get fails with an error e other than the miss
    signal, Get returns e itself, the builder is never invoked, Storage.Set
    is never called and no write is scheduled. *)
Theorem Get_storage_error (data : bytes) (e : error) (w1 : W) :
  Storage_Get (Storage_ (self st)) ctx k (world st) = ((data, Some e), w1) ->
  e <> ErrCacheMiss ->
  result (Get ctx k dest b) st = Some e /\
  builds (calls (Get ctx k dest b) st) = [] /\
  storage_sets (calls (Get ctx k dest b) st) = [] /\
  spawned (calls (Get ctx k dest b) st) = [] /\
  pool (final (Get ctx k dest b) st) = pool st /\
  tracked (calls (Get ctx k dest b) st) = [CacheGetError].
Proof.
  intros H1 N. run. rewrite H1. simpl.
  rewrite (error_eqb_neq _ _ N). simpl. settle. repeat split; reflexivity.
Qed.

(** C5.  When Storage.Get misses and the builder fails with cause E, Get
    returns the LambdaError wrapping E: it passes the type test for
    LambdaError, its Cause is E and it differs from E itself.  Storage.Set
    is never called and no write is scheduled. *)
Theorem Get_build_error (data : bytes) (w1 w2 : W) (v : V) (E : error) :
  Storage_Get (Storage_ (self st)) ctx k (world st)
    = ((data, Some ErrCacheMiss), w1) ->
  b ctx k (heap st dest) (Track (getMetrics (self st)) CacheMiss w1)
    = ((v, Some E), w2) ->
  result (Get ctx k dest b) st = Some (LambdaError E) /\
  isLambdaError (LambdaError E) = true /\
  Cause (LambdaError E) = Some E /\
  LambdaError E <> E /\
  storage_sets (calls (Get ctx k dest b) st) = [] /\
  spawned (calls (Get ctx k dest b) st) = [] /\
  pool (final (Get ctx k dest b) st) = pool st.
Proof.
  intros H1 H2. run. rewrite H1. simpl. rewrite H2. simpl. settle.
  repeat split; try reflexivity. apply LambdaError_neq.
Qed.



End Read.

(** *** The counter and the write path *)

Lemma wrap64_range (x : Z) : - 2 ^ 63 <= wrap64 x < 2 ^ 63.
Proof.
  unfold wrap64.
  pose proof (Z.mod_pos_bound (x + 2 ^ 63) (2 ^ 64) eq_refl). lia.
Qed.

Lemma wrap64_small (x : Z) : - 2 ^ 63 <= x < 2 ^ 63 -> wrap64 x = x.
Proof.
  intros H. unfold wrap64. rewrite Z.mod_small; lia.
Qed.

Lemma wrap64_add_l (a b : Z) : wrap64 (wrap64 a + b) = wrap64 (a + b).
Proof.
  unfold wrap64.
  replace ((a + 2 ^ 63) mod 2 ^ 64 - 2 ^ 63 + b + 2 ^ 63)
    with ((a + 2 ^ 63) mod 2 ^ 64 + b) by lia.
  rewrite Zplus_mod_idemp_l. f_equal. f_equal. lia.
Qed.

(** The deadline of the context made by [WithTimeout] is at most the
    timeout away, whatever the parent. *)
Lemma WithTimeout_bounded (n : Z) (parent : Context) (d : Z) :
  exists t, Deadline (WithTimeout n parent d) = Some t /\ t <= n + d.
Proof.
  unfold WithTimeout, WithDeadline.
  destruct (Deadline parent) as [cur|] eqn:E.
  - destruct (cur <? n + d) eqn:L.
    + exists cur. simpl. split; auto. apply Z.ltb_lt in L. lia.
    + exists (Z.min cur (n + d)). simpl. rewrite E. split; auto. lia.
  - exists (n + d). simpl. rewrite E. split; auto. lia.
Qed.

Section Write.
Context {W V : Type} {enc : BinaryEncoder V}.
Variable now : W -> Z.

Lemma Set_run (st : State W V) ctx k val :
  atomic_adds (calls (Set_ now ctx k val) st) = [-1] /\
  pendingWrites (self (final (Set_ now ctx k val) st))
    = wrap64 (pendingWrites (self st) - 1) /\
  storage_sets (calls (Set_ now ctx k val) st)
    = expected_sets (write_ctx now st ctx) k (heap st val).
Proof.
  unfold expected_sets, write_ctx. run.
  destruct (MarshalBinary (heap st val)) as [data [e|]]; simpl.
  - settle. repeat split; reflexivity.
  - destruct (Storage_Set _ _ _ _ _) as [[e|] w1]; simpl; settle;
      repeat split; reflexivity.
Qed.

Lemma Get_counter (st : State W V) ctx k dest (b : Builder W V) :
  atomic_adds (calls (Get ctx k dest b) st)
    = (if build_succeeded (calls (Get ctx k dest b) st) then [1] else []) /\
  pendingWrites (self (final (Get ctx k dest b) st))
    = (if build_succeeded (calls (Get ctx k dest b) st)
       then wrap64 (pendingWrites (self st) + 1)
       else pendingWrites (self st)).
Proof.
  run. destruct (Storage_Get _ _ _ _) as [[data [e|]] w1]; simpl.
  - destruct (error_eqb e ErrCacheMiss); simpl.
    + destruct (b _ _ _ _) as [[v [e'|]] w2]; simpl; settle;
        split; reflexivity.
    + settle. split; reflexivity.
  - destruct (UnmarshalBinary _ _) as [v [e'|]]; simpl.
    + destruct (Storage_Invalidate _ _ _ _) as [[ie|] w2]; simpl; settle;
        split; reflexivity.
    + settle. split; reflexivity.
Qed.

Lemma Invalidate_counter (st : State W V) ctx k :
  atomic_adds (calls (Invalidate ctx k) st) = [] /\
  pendingWrites (self (final (Invalidate ctx k) st))
    = pendingWrites (self st).
Proof.
  run. destruct (Storage_Invalidate _ _ _ _) as [[ie|] w2]; simpl; settle;
    split; reflexivity.
Qed.

Lemma Set_many_counter (l : list (Context * string * loc)) :
  forall st : State W V,
    - 2 ^ 63 <= pendingWrites (self st) < 2 ^ 63 ->
    pendingWrites (self (final (Set_many now l) st))
      = wrap64 (pendingWrites (self st) - Z.of_nat (List.length l)).
Proof.
  induction l as [|[[ctx k] val] l IH]; intros st R.
  - simpl. rewrite Z.sub_0_r. symmetry. apply wrap64_small. exact R.
  - unfold final in *. cbn [Set_many]. unfold bind at 1.
    destruct (Set_ now ctx k val st) as [u st1] eqn:E.
    pose proof (Set_run st ctx k val) as (_ & P & _).
    unfold final in P. rewrite E in P. simpl in P.
    rewrite IH by (rewrite P; apply wrap64_range).
    rewrite P.
    replace (wrap64 (pendingWrites (self st) - 1) - Z.of_nat (List.length l))
      with (wrap64 (pendingWrites (self st) - 1) + - Z.of_nat (List.length l))
      by lia.
    rewrite wrap64_add_l. f_equal. cbn [List.length]. lia.
Qed.

(** C8.  Every call of Set decrements the pending-write counter exactly
    once, whatever the exit path: a marshal failure, where Storage.Set is
    not called at all, or a storage write, successful or failed, where it is
    called once with the serialized value. *)
Theorem Set_decrements_once (st : State W V) ctx k val :
  atomic_adds (calls (Set_ now ctx k val) st) = [-1] /\
  pendingWrites (self (final (Set_ now ctx k val) st))
    = wrap64 (pendingWrites (self st) - 1) /\
  storage_sets (calls (Set_ now ctx k val) st)
    = match MarshalBinary (heap st val) with
      | (data, None) => [(write_ctx now st ctx, k, data)]
      | (_, Some _) => []
      end.
Proof.
  exact (Set_run st ctx k val).
Qed.

(** C9.  Get changes the counter only where the builder succeeded, by +1;
    Invalidate leaves it alone; Set always subtracts 1 and never adds.
    Hence n direct calls of Set on
    a fresh client (counter 0), n within the range of int64, leave the
    counter at -n. *)
Theorem direct_Set_counter_negative (st : State W V)
    (l : list (Context * string * loc)) :
  pendingWrites (self st) = 0 ->
  Z.of_nat (List.length l) <= 2 ^ 63 ->
  (forall (s : State W V) ctx k dest (b : Builder W V),
      atomic_adds (calls (Get ctx k dest b) s)
        = (if build_succeeded (calls (Get ctx k dest b) s)
           then [1] else []) /\
      pendingWrites (self (final (Get ctx k dest b) s))
        = (if build_succeeded (calls (Get ctx k dest b) s)
           then wrap64 (pendingWrites (self s) + 1)
           else pendingWrites (self s))) /\
  (forall (s : State W V) ctx k val,
      atomic_adds (calls (Set_ now ctx k val) s) = [-1] /\
      pendingWrites (self (final (Set_ now ctx k val) s))
        = wrap64 (pendingWrites (self s) - 1)) /\
  (forall (s : State W V) ctx k,
      atomic_adds (calls (Invalidate ctx k) s) = [] /\
      pendingWrites (self (final (Invalidate ctx k) s))
        = pendingWrites (self s)) /\
  pendingWrites (self (final (Set_many now l) st))
    = - Z.of_nat (List.length l).
Proof.
  intros Z0 B. split; [|split; [|split]].
  - intros. apply Get_counter.
  - intros. pose proof (Set_run s ctx k val) as (A & P & _). auto.
  - intros. apply Invalidate_counter.
  - rewrite Set_many_counter by (rewrite Z0; lia).
    rewrite Z0. apply wrap64_small. lia.
Qed.



End Write.

(** *** The write timeout *)

(** C10.  The effective write timeout is the configured WriteTimeout when
    that is strictly positive, and 3 seconds (3000000000 ns) for every other
    value, zero or negative. *)
Theorem getWriteTimeout_effective {W : Type} (c : Client W) :
  (0 < WriteTimeout c -> getWriteTimeout c = WriteTimeout c) /\
  (WriteTimeout c <= 0 -> getWriteTimeout c = 3000000000).
Proof.
  unfold getWriteTimeout, Second. split; intros H.
  - destruct (WriteTimeout c >? 0) eqn:E; auto.
    rewrite Z.gtb_ltb in E. apply Z.ltb_ge in E. lia.
  - destruct (WriteTimeout c >? 0) eqn:E; auto.
    rewrite Z.gtb_ltb in E. apply Z.ltb_lt in E. lia.
Qed.

(** A context made by [WithTimeout] is done as soon as its parent is. *)
Lemma WithTimeout_Done_parent (n : Z) (parent : Context) (d t : Z) :
  Done parent t = true -> Done (WithTimeout n parent d) t = true.
Proof.
  intros H. unfold WithTimeout, WithDeadline.
  destruct (Deadline parent) as [cur|]; [destruct (cur <? n + d)|];
    simpl; rewrite H; reflexivity.
Qed.

(** ** Scenarios on the concrete backend *)

Module Scenarios.
Import Demo.


(** Scenario D: the store times out; the timeout error comes back. *)
Lemma Get_storage_error_witness :
  errorString "timeout" <> ErrCacheMiss /\
  result (Get Background "user:9" 0%nat fetchUser) st_outage
    = Some (errorString "timeout") /\
  builds (calls (Get Background "user:9" 0%nat fetchUser) st_outage) = [].
Proof.
  assert (H1 : Storage_Get (Storage_ (self st_outage)) Background "user:9"
                 (world st_outage)
               = (([], Some (errorString "timeout")), world st_outage))
    by reflexivity.
  assert (N : errorString "timeout" <> ErrCacheMiss) by discriminate.
  pose proof (Get_storage_error st_outage Background "user:9" 0%nat
                fetchUser [] (errorString "timeout") (world st_outage)
                H1 N) as (R & B & _).
  split; [exact N | split; [exact R | exact B]].
Defined.

(** Scenario C: the builder fails with db unreachable. *)
Lemma Get_build_error_witness :
  result (Get Background "user:7" 0%nat fetchUser) st_source_down
    = Some (LambdaError (errorString "db unreachable")) /\
  storage_sets (calls (Get Background "user:7" 0%nat fetchUser)
                      st_source_down) = [].
Proof.
  pose (w1 := world st_source_down).
  pose (w2 := Track countingMetrics CacheMiss w1).
  assert (H1 : Storage_Get (Storage_ (self st_source_down)) Background
                 "user:7" (world st_source_down)
               = (([], Some ErrCacheMiss), w1)) by reflexivity.
  assert (H2 : fetchUser Background "user:7" (heap st_source_down 0%nat)
                 (Track (getMetrics (self st_source_down)) CacheMiss w1)
               = ((blank, Some (errorString "db unreachable")), w2))
    by reflexivity.
  pose proof (Get_build_error st_source_down Background "user:7" 0%nat
                fetchUser [] w1 w2 blank (errorString "db unreachable")
                H1 H2) as (R & _ & _ & _ & S & _).
  split; [exact R | exact S].
Defined.



(** Three direct calls of Set on a fresh client leave the counter at -3. *)
Lemma direct_Set_counter_negative_witness :
  pendingWrites (self st_Ann) = 0 /\
  pendingWrites
    (self (final (Set_many clock
                    [(Background, "a", 0%nat); (Background, "b", 0%nat);
                     (cancelled, "c", 1%nat)]) st_Ann)) = -3.
Proof.
  split; [reflexivity|].
  apply (direct_Set_counter_negative clock st_Ann
           [(Background, "a", 0%nat); (Background, "b", 0%nat);
            (cancelled, "c", 1%nat)]).
  - reflexivity.
  - vm_compute. discriminate.
Defined.

(** A configured 5 ns is kept; a configured -7 ns gives 3 seconds. *)
Lemma getWriteTimeout_effective_witness :
  getWriteTimeout (client 5) = 5 /\
  getWriteTimeout (client (-7)) = 3000000000.
Proof.
  split.
  - apply (proj1 (getWriteTimeout_effective (client 5))). reflexivity.
  - apply (proj2 (getWriteTimeout_effective (client (-7)))).
    vm_compute. discriminate.
Defined.



(** C2 (failing input).  Set called directly with the caller's context:
    the context handed to Storage.Set is a child of it.  With a cancelled
    caller context the write context is already done and the store refuses
    the write, which the same call on a background context performs; with
    a caller deadline at instant 1001 the write context's deadline is 1001
    and not the instant 3000001000 that the write timeout gives. *)
Theorem Set_direct_inherits_caller_context :
  storage_sets (calls (Set_ clock cancelled key42 0%nat) st_Ann)
    = [(write_ctx clock st_Ann cancelled, key42, Ann_bytes)] /\
  Done (write_ctx clock st_Ann cancelled) (clock (world st_Ann)) = true /\
  store (world (final (Set_ clock cancelled key42 0%nat) st_Ann)) = [] /\
  Done (write_ctx clock st_Ann Background) (clock (world st_Ann)) = false /\
  store (world (final (Set_ clock Background key42 0%nat) st_Ann))
    = [(key42, Ann_bytes)] /\
  Deadline (write_ctx clock st_Ann hurried) = Some 1001 /\
  Deadline (write_ctx clock st_Ann Background) = Some 3000001000.
Proof.
  repeat split; reflexivity.
Qed.

End Scenarios.

(** ** Further properties of the client *)

Section Discipline.
Context {W V : Type} {enc : BinaryEncoder V}.
Variable now : W -> Z.



(** Set releases the context it derived exactly once on every exit path,
    and the last two things it does are that release and then the decrement
    of the counter. *)
Theorem Set_releases_context (st : State W V) ctx k val :
  cancels (calls (Set_ now ctx k val) st) = [write_ctx now st ctx] /\
  exists before,
    calls (Set_ now ctx k val) st
      = before ++ [CCancel (write_ctx now st ctx); CAtomicAdd (-1)].
Proof.
  unfold write_ctx. run.
  destruct (MarshalBinary (heap st val)) as [data [e|]]; simpl.
  - settle. split; [reflexivity|]. eexists [_; _; _]. reflexivity.
  - destruct (Storage_Set _ _ _ _ _) as [[e|] w1]; simpl; settle;
      (split; [reflexivity|]).
    + eexists [_; _; _; _]. reflexivity.
    + eexists [_; _]. reflexivity.
Qed.

(** The effective write timeout is positive, and every context Set hands to
    Storage.Set has a deadline no later than that timeout after the instant
    at which Set started, whatever context the caller passed. *)
Theorem Set_write_deadline (st : State W V) ctx k val :
  0 < getWriteTimeout (self st) /\
  Forall (fun w => exists t,
            Deadline (fst (fst w)) = Some t /\
            t <= now (world st) + getWriteTimeout (self st))
         (storage_sets (calls (Set_ now ctx k val) st)).
Proof.
  split.
  - unfold getWriteTimeout, Second.
    destruct (WriteTimeout (self st) >? 0) eqn:E; [|lia].
    rewrite Z.gtb_ltb in E. apply Z.ltb_lt in E. exact E.
  - pose proof (Set_run now st ctx k val) as (_ & _ & S). rewrite S.
    unfold expected_sets.
    destruct (MarshalBinary (heap st val)) as [data [e|]]; constructor;
      [|constructor].
    simpl. apply WithTimeout_bounded.
Qed.




(** Get writes to no object but dest; Set and Invalidate write to none. *)
Theorem heap_frame (st : State W V) ctx k dest (b : Builder W V) (l : loc) :
  l <> dest ->
  heap (final (Get ctx k dest b) st) l = heap st l /\
  (forall val l', heap (final (Set_ now ctx k val) st) l' = heap st l') /\
  (forall l', heap (final (Invalidate ctx k) st) l' = heap st l').
Proof.
  intros N. apply Nat.eqb_neq in N. repeat split.
  - run. destruct (Storage_Get _ _ _ _) as [[data [e|]] w1]; simpl.
    + destruct (error_eqb e ErrCacheMiss); simpl; auto.
      destruct (b _ _ _ _) as [[v [e'|]] w2]; simpl; rewrite N; auto.
    + destruct (UnmarshalBinary _ _) as [v [e'|]]; simpl.
      * destruct (Storage_Invalidate _ _ _ _) as [[ie|] w2]; simpl;
          rewrite N; auto.
      * rewrite N; auto.
  - intros val l'. run.
    destruct (MarshalBinary (heap st val)) as [data [e|]]; simpl; auto.
    destruct (Storage_Set _ _ _ _ _) as [[e|] w1]; simpl; auto.
  - intros l'. run.
    destruct (Storage_Invalidate _ _ _ _) as [[e|] w1]; simpl; auto.
Qed.


End Discipline.

(** *** The counter counts the goroutines in flight *)

Lemma remove_nth_length {A : Type} (i : nat) (l : list A) :
  (i < List.length l)%nat ->
  List.length (remove_nth i l) = (List.length l - 1)%nat.
Proof.
  intros H. unfold remove_nth.
  rewrite length_app, length_firstn, length_skipn. lia.
Qed.

Section Balance.
Context {W V : Type} {enc : BinaryEncoder V}.
Variable now : W -> Z.

Lemma Get_pool_counter (st : State W V) ctx k dest (b : Builder W V) :
  exists flag : bool,
    pool (final (Get ctx k dest b) st)
      = pool st ++
        (if flag
         then [{| task_ctx := Background; task_key := k; task_val := dest |}]
         else []) /\
    pendingWrites (self (final (Get ctx k dest b) st))
      = (if flag then wrap64 (pendingWrites (self st) + 1)
         else pendingWrites (self st)).
Proof.
  run. destruct (Storage_Get _ _ _ _) as [[data [e|]] w1]; simpl.
  - destruct (error_eqb e ErrCacheMiss); simpl.
    + destruct (b _ _ _ _) as [[v [e'|]] w2]; simpl.
      * exists false. rewrite app_nil_r. auto.
      * exists true. auto.
    + exists false. rewrite app_nil_r. auto.
  - destruct (UnmarshalBinary _ _) as [v [e'|]]; simpl.
    + destruct (Storage_Invalidate _ _ _ _) as [[ie|] w2]; simpl;
        exists false; rewrite app_nil_r; auto.
    + exists false. rewrite app_nil_r. auto.
Qed.

Lemma Set_pool_counter (st : State W V) ctx k val :
  pool (final (Set_ now ctx k val) st) = pool st /\
  pendingWrites (self (final (Set_ now ctx k val) st))
    = wrap64 (pendingWrites (self st) - 1).
Proof.
  run. destruct (MarshalBinary (heap st val)) as [data [e|]]; simpl; auto.
  destruct (Storage_Set _ _ _ _ _) as [[e|] w1]; simpl; auto.
Qed.

Lemma Invalidate_pool_counter (st : State W V) ctx k :
  pool (final (Invalidate ctx k) st) = pool st /\
  pendingWrites (self (final (Invalidate ctx k) st))
    = pendingWrites (self st).
Proof.
  run. destruct (Storage_Invalidate _ _ _ _) as [[e|] w1]; simpl; auto.
Qed.

Lemma run_op_keeps_match (o : Op) (st : State W V) :
  counter_matches_pool st ->
  counter_matches_pool (final (run_op now o) st).
Proof.
  unfold counter_matches_pool. intros I. destruct o as [ctx k dest b|ctx k|i].
  - destruct (Get_pool_counter st ctx k dest b) as (flag & P & C).
    unfold final, run_op, bind in *.
    destruct (Get ctx k dest b st) as [r s1]. simpl in *.
    rewrite P, C, length_app. destruct flag; simpl.
    + rewrite I, wrap64_add_l. f_equal. lia.
    + rewrite I. f_equal. lia.
  - destruct (Invalidate_pool_counter st ctx k) as (P & C).
    unfold final, run_op, bind in *.
    destruct (Invalidate ctx k st) as [r s1]. simpl in *.
    rewrite P, C. exact I.
  - unfold final, run_op, schedule.
    destruct (nth_error (pool st) i) as [t|] eqn:E; [|exact I].
    assert (L : (i < List.length (pool st))%nat)
      by (apply nth_error_Some; rewrite E; discriminate).
    unfold run_task.
    match goal with |- context [Set_ now ?c ?k ?v ?s] =>
      destruct (Set_pool_counter s c k v) as (P & C) end.
    unfold final in P, C. rewrite P, C. simpl.
    rewrite remove_nth_length by exact L. rewrite I.
    replace (wrap64 (Z.of_nat (List.length (pool st))) - 1)
      with (wrap64 (Z.of_nat (List.length (pool st))) + -1) by lia.
    rewrite wrap64_add_l. f_equal. lia.
Qed.

(** Over any sequence of Get calls, Invalidate calls and goroutines run by
    the scheduler, the counter keeps counting the write-backs in flight: if
    it matches the number of goroutines started and not yet run before, it
    does so after, and it is back at zero once none is left. *)
Theorem counter_counts_write_backs (ops : list (@Op W V))
    (st : State W V) :
  counter_matches_pool st ->
  counter_matches_pool (final (run_ops now ops) st) /\
  (pool (final (run_ops now ops) st) = [] ->
   pendingWrites (self (final (run_ops now ops) st)) = 0).
Proof.
  revert st. induction ops as [|o ops IH]; intros st I.
  - split; [exact I|]. unfold final. simpl. intros E.
    unfold counter_matches_pool in I. rewrite I, E. reflexivity.
  - pose proof (run_op_keeps_match o st I) as I1.
    assert (E : run_ops now (o :: ops) st
                = run_ops now ops (final (run_op now o) st)).
    { cbn [run_ops]. unfold bind, final.
      destruct (run_op now o st) as [u s1]. reflexivity. }
    unfold final in *. rewrite E. apply IH. exact I1.
Qed.

End Balance.

Section Order.
Context {W V : Type} {enc : BinaryEncoder V}.

(** Whenever Get starts a goroutine, the increment of the counter comes
    immediately before the go statement, and the two are the last things Get
    does: no write-back is ever in flight without being counted. *)
Theorem Get_counts_before_spawning (st : State W V) ctx k dest
    (b : Builder W V) :
  spawned (calls (Get ctx k dest b) st) = [] \/
  exists before,
    calls (Get ctx k dest b) st
      = before ++
        [CAtomicAdd 1;
         CGo {| task_ctx := Background; task_key := k; task_val := dest |}] /\
    atomic_adds before = [] /\ spawned before = [].
Proof.
  run. destruct (Storage_Get _ _ _ _) as [[data [e|]] w1]; simpl.
  - destruct (error_eqb e ErrCacheMiss); simpl.
    + destruct (b _ _ _ _) as [[v [e'|]] w2]; simpl; settle; auto.
      right. eexists [_; _; _]. repeat split; reflexivity.
    + settle. auto.
  - destruct (UnmarshalBinary _ _) as [v [e'|]]; simpl.
    + destruct (Storage_Invalidate _ _ _ _) as [[ie|] w2]; simpl; settle;
        auto.
    + settle. auto.
Qed.


End Order.

Module MoreScenarios.
Import Demo.

(** Two misses on an empty store and the two write-backs run: the counter
    is back at zero and the store holds Ann. *)
Lemma counter_counts_write_backs_witness :
  counter_matches_pool st_empty /\
  pendingWrites
    (self (final (run_ops clock
                    [OpGet Background key42 0%nat fetchUser;
                     OpGet Background "user:7" 1%nat fetchUser;
                     OpSchedule 1; OpSchedule 0]) st_empty)) = 0.
Proof.
  assert (I : counter_matches_pool st_empty) by reflexivity.
  split; [exact I|].
  apply (counter_counts_write_backs clock
           [OpGet Background key42 0%nat fetchUser;
            OpGet Background "user:7" 1%nat fetchUser;
            OpSchedule 1; OpSchedule 0] st_empty I).
  reflexivity.
Defined.

(** A hit on user:42 into object 0 leaves object 1 as it was. *)
Lemma heap_frame_witness :
  (1 <> 0)%nat /\
  heap (final (Get Background key42 0%nat fetchUser) st_stored) 1%nat
    = blank.
Proof.
  assert (N : (1 <> 0)%nat) by discriminate.
  split; [exact N|].
  apply (heap_frame clock st_stored Background key42 0%nat fetchUser
           1%nat N).
Defined.


End MoreScenarios.
